(** * E-ARK test case decoding (ip_validation/cli/testcases.py)

    A shallow embedding of the [TestCase] aggregate and of its XML decoders,
    together with the properties of the decoders that the specification of
    the module states. *)

From stdpp Require Import base option list strings gmap.

Local Open Scope string_scope.

(** ** Python values and exceptions *)

(** The Python values that end up in the fields of the decoded objects:
    [None], a [str], or a [bool] (the constructor default [testable=True]). *)
Inductive value :=
  | PyNone
  | PyStr (s : string)
  | PyBool (b : bool).

Global Instance value_eq_dec : EqDecision value.
Proof. solve_decision. Defined.

(** Python's [==] on these values.  A [str] is equal to a [str] with the same
    characters only, [None] to [None] only; a [bool] is never equal to a
    [str]. *)
Definition py_eq (x y : value) : bool :=
  match x, y with
  | PyNone, PyNone => true
  | PyStr s, PyStr t => bool_decide (s = t)
  | PyBool a, PyBool b => bool_decide (a = b)
  | _, _ => false
  end.

Inductive exn :=
  | TypeError
  | AttributeError
  | XMLSyntaxError
  | OSError.

(** A computation that returns a value or raises. *)
Inductive result (A : Type) :=
  | Ok (a : A)
  | Raise (e : exn).
Arguments Ok {A} a.
Arguments Raise {A} e.

Global Instance result_ret : MRet result := fun A a => Ok a.
Global Instance result_bind : MBind result := fun A B k m =>
  match m with
  | Ok a => k a
  | Raise e => Raise e
  end.

(** [s + v] for a [str] on the left: concatenation when [v] is a [str],
    [TypeError] otherwise. *)
Definition str_add (s : string) (v : value) : result string :=
  match v with
  | PyStr t => Ok (s ++ t)
  | PyNone | PyBool _ => Raise TypeError
  end.

(** ** The part of lxml.etree the module uses *)

Module ET.

(** [Element.tag] is a name for an element; for a comment or a processing
    instruction it is the factory function, which no string equals. *)
Inductive tag_t :=
  | QName (name : string)
  | Comment
  | ProcessingInstruction.

#[warnings="-register-all"] Inductive Element :=
  | mkElement (tag : tag_t) (attrib : gmap string string)
              (text : option string) (children : list Element).

Definition tag (e : Element) : tag_t :=
  match e with mkElement t _ _ _ => t end.
Definition attrib (e : Element) : gmap string string :=
  match e with mkElement _ a _ _ => a end.
Definition children (e : Element) : list Element :=
  match e with mkElement _ _ _ c => c end.

(** [e.text]: the text before the first child, [None] when there is none. *)
Definition text (e : Element) : value :=
  match e with
  | mkElement _ _ (Some s) _ => PyStr s
  | mkElement _ _ None _ => PyNone
  end.

(** [e.get(key)]: the attribute's value, [None] when it is absent. *)
Definition get (e : Element) (key : string) : value :=
  match attrib e !! key with
  | Some v => PyStr v
  | None => PyNone
  end.

(** [e.tag == name] *)
Definition tag_is (e : Element) (name : string) : bool :=
  match tag e with
  | QName t => bool_decide (t = name)
  | Comment | ProcessingInstruction => false
  end.

(** [XMLSchema.validate] returns [True] for a valid document and [False]
    for an invalid one; it does not raise. *)
Record XMLSchema := { validate : Element -> bool }.

(** What the parsing functions hand back: [fromstring] gives the root
    [_Element], [parse] gives an [_ElementTree]. *)
Inductive node :=
  | ElementNode (e : Element)
  | ElementTreeNode (root : Element).

(** [getroot] is a method of [_ElementTree]; an [_Element] has none. *)
Definition getroot (n : node) : result Element :=
  match n with
  | ElementTreeNode root => Ok root
  | ElementNode _ => Raise AttributeError
  end.

(** The XML parser and the files it can open are outside the module: the
    parser maps a text to its root element when the text is well formed,
    the file system maps a path to the file's content. *)
Record world := {
  xml : string -> option Element;
  file : string -> option string
}.

Definition fromstring (w : world) (text : string) : result node :=
  match xml w text with
  | Some e => Ok (ElementNode e)
  | None => Raise XMLSyntaxError
  end.

Definition parse (w : world) (path : string) : result node :=
  match file w path with
  | None => Raise OSError
  | Some text =>
      match xml w text with
      | Some e => Ok (ElementTreeNode e)
      | None => Raise XMLSyntaxError
      end
  end.

End ET.

(** ** The test case and its parts *)

Module TestCase.

Module CaseId.

Record t := mk {
  _requirement_id : value;
  _specification : value;
  _version : value
}.

Definition __init__ (requirement_id : value)
    (specification version : option value) : t :=
  mk requirement_id (default (PyStr "CSIP") specification)
     (default (PyStr "2.0") version).

Definition requirement_id (self : t) := _requirement_id self.
Definition specification (self : t) := _specification self.
Definition version (self : t) := _version self.

Definition from_element (case_id_ele : ET.Element) : t :=
  let requirement_id := ET.get case_id_ele "requirementId" in
  let specification := ET.get case_id_ele "specification" in
  let version := ET.get case_id_ele "version" in
  __init__ requirement_id (Some specification) (Some version).

Definition __str__ (self : t) : result string :=
  s1 ← str_add "req_id:" (requirement_id self);
  s2 ← str_add s1 (PyStr ", specification:");
  s3 ← str_add s2 (specification self);
  s4 ← str_add s3 (PyStr ", version:");
  str_add s4 (version self).

End CaseId.

Module Rule.

Module Error.

Record t := mk {
  _level : value;
  _message : value
}.

Definition level (self : t) := _level self.
Definition message (self : t) := _message self.

Definition from_element (error_ele : ET.Element) : t :=
  let level := ET.get error_ele "level" in
  let message :=
    foldl (fun message child =>
             if ET.tag_is child "message" then ET.text child
             else message)
          (PyStr "") (ET.children error_ele) in
  mk level message.

End Error.

Module Package.

Record t := mk {
  _name : value;
  _path : value;
  _is_valid : value;
  _description : value
}.

Definition name (self : t) := _name self.
Definition path (self : t) := _path self.
Definition is_valid (self : t) := _is_valid self.
Definition description (self : t) := _description self.

Definition from_element (package_ele : ET.Element) : t :=
  let is_valid := ET.get package_ele "isValid" in
  let name := ET.get package_ele "name" in
  let '(path, description) :=
    foldl (fun '(path, description) child =>
             if ET.tag_is child "path" then (ET.text child, description)
             else if ET.tag_is child "description"
                  then (path, ET.text child)
                  else (path, description))
          (PyStr "", PyStr "") (ET.children package_ele) in
  mk name path is_valid description.

End Package.

Record t := mk {
  _rule_id : value;
  _description : value;
  _error : option Error.t;
  _packages : list Package.t
}.

Definition rule_id (self : t) := _rule_id self.
Definition description (self : t) := _description self.
Definition error (self : t) := _error self.
Definition packages (self : t) := _packages self.

Definition _parse_package_list (packages_ele : ET.Element)
    : list Package.t :=
  foldl (fun packages child =>
           if ET.tag_is child "package"
           then (packages ++ [Package.from_element child])%list
           else packages)
        [] (ET.children packages_ele).

Definition from_element (rule_ele : ET.Element) : t :=
  let rule_id := ET.get rule_ele "id" in
  let '(description, error, packages) :=
    foldl (fun '(description, error, packages) child =>
             if ET.tag_is child "description"
             then (ET.text child, error, packages)
             else if ET.tag_is child "error"
             then (description, Some (Error.from_element child), packages)
             else if ET.tag_is child "corpusPackages"
             then (description, error, _parse_package_list child)
             else (description, error, packages))
          (PyStr "", None, []) (ET.children rule_ele) in
  mk rule_id description error packages.

(** [str(self.error)]: the text [None] without an error.  The [Error] class
    has no [__str__] of its own, so an error prints as the default
    representation of the object, which [object_str] stands for. *)
Definition str_error (object_str : Error.t -> string)
    (error : option Error.t) : string :=
  match error with
  | Some error => object_str error
  | None => "None"
  end.

Definition __str__ (object_str : Error.t -> string) (self : t)
    : result string :=
  s1 ← str_add "rule_id:" (rule_id self);
  s2 ← str_add s1 (PyStr ", description:");
  s3 ← str_add s2 (description self);
  s4 ← str_add s3 (PyStr ", error:");
  str_add s4 (PyStr (str_error object_str (error self))).

End Rule.

Record t := mk {
  _case_id : option CaseId.t;
  _testable : value;
  _references : list value;
  _text : value;
  _rules : list Rule.t
}.

(** An argument left out of the call is [None] here and takes the default
    of the signature: [testable=True], [references=None], [text=""],
    [rules=None]. *)
Definition __init__ (case_id : option CaseId.t) (testable : option value)
    (references : option (list value)) (text : option value)
    (rules : option (list Rule.t)) : t :=
  mk case_id
     (default (PyBool true) testable)
     (match references with None => [] | Some references => references end)
     (default (PyStr "") text)
     (match rules with None => [] | Some rules => rules end).

Definition case_id (self : t) := _case_id self.
Definition testable (self : t) : bool := py_eq (_testable self) (PyStr "TRUE").
Definition unknown (self : t) : bool := py_eq (_testable self) (PyStr "UNKNOWN").
Definition references (self : t) := _references self.
Definition requirement_text (self : t) := _text self.
Definition rules (self : t) := _rules self.

(** [str(self.case_id)]: the [__str__] of the [CaseId], or ["None"]. *)
Definition str_case_id (c : option CaseId.t) : result string :=
  match c with
  | Some c => CaseId.__str__ c
  | None => Ok "None"
  end.

Definition __str__ (self : t) : result string :=
  c ← str_case_id (case_id self);
  s1 ← str_add "case_id:" (PyStr c);
  s2 ← str_add s1 (PyStr ", testable:");
  s3 ← str_add s2 (PyBool (testable self));
  s4 ← str_add s3 (PyStr ", requirement:");
  str_add s4 (requirement_text self).

(** The loop over the children of the test case element, on the state
    [(req_id, text, rules)]. *)
Definition from_element_step
    (st : option CaseId.t * value * list Rule.t) (child : ET.Element)
    : option CaseId.t * value * list Rule.t :=
  let '(req_id, text, rules) := st in
  if ET.tag_is child "id"
  then (Some (CaseId.from_element child), text, rules)
  else if ET.tag_is child "requirementText"
  then (req_id, ET.text child, rules)
  else if ET.tag_is child "rules"
  then (req_id, text,
        foldl (fun rules rule_ele =>
                 (rules ++ [Rule.from_element rule_ele])%list)
              rules (ET.children child))
  else (req_id, text, rules).

Section EntryPoints.

Variable lxml : ET.world.
(** The schema compiled from the bundled [testCase.xsd]. *)
Variable TC_SCHEMA : ET.XMLSchema.

Definition from_element (case_ele : ET.Element)
    (schema : option ET.XMLSchema) : result t :=
  let schema := default TC_SCHEMA schema in
  mret (ET.validate schema case_ele);;
  let testable := ET.get case_ele "testable" in
  let '(req_id, text, rules) :=
    foldl from_element_step (None, PyStr "", []) (ET.children case_ele) in
  Ok (__init__ req_id (Some testable) None (Some text) (Some rules)).

Definition from_xml_string (xml : string) (schema : option ET.XMLSchema)
    : result t :=
  tree ← ET.fromstring lxml xml;
  root ← ET.getroot tree;
  from_element root (Some (default TC_SCHEMA schema)).

Definition from_xml_file (xml_file : string)
    (schema : option ET.XMLSchema) : result t :=
  tree ← ET.parse lxml xml_file;
  root ← ET.getroot tree;
  from_element root (Some (default TC_SCHEMA schema)).

End EntryPoints.

End TestCase.

Local Open Scope list_scope.

(** ** Reading a document *)

(** The children of [e] that carry the tag [name], in document order. *)
Definition tagged (name : string) (e : ET.Element) : list ET.Element :=
  filter (λ c, ET.tag_is c name = true) (ET.children e).

(** A child that the loop of [TestCase.from_element] acts on. *)
Definition known_child (c : ET.Element) : bool :=
  ET.tag_is c "id" || ET.tag_is c "requirementText" || ET.tag_is c "rules".

(** ** Sample documents *)

Module Samples.
Import ET.

(** An element with a name, attributes, text and children. *)
Definition elt (name : string) (attrs : list (string * string))
    (text : option string) (children : list Element) : Element :=
  mkElement (QName name) (list_to_map attrs) text children.

(** A comment node: no attributes, no children, the comment as its text. *)
Definition comment (text : string) : Element :=
  mkElement Comment ∅ (Some text) [].

(** A schema that accepts a document when its root is a [testCase]. *)
Definition root_is_testCase : XMLSchema :=
  {| validate := fun e => tag_is e "testCase" |}.

(** A schema that accepts a [testCase] root with an [id] child. *)
Definition requires_id : XMLSchema :=
  {| validate := fun e =>
       tag_is e "testCase" &&
       bool_decide (Exists (fun c => tag_is c "id") (children e)) |}.

(** <report/> *)
Definition wrong_root : Element := elt "report" [] None [].

(** <testCase testable='TRUE'><requirementText>Must have METS</requirementText></testCase> *)
Definition missing_id : Element :=
  elt "testCase" [("testable", "TRUE")] None
    [elt "requirementText" [] (Some "Must have METS") []].

(** An empty test case, the constructor given the case id only. *)
Definition bare : TestCase.t :=
  TestCase.__init__ (Some (TestCase.CaseId.__init__ (PyStr "CSIP1") None None))
    None None None None.

(** <testCase testable='TRUE'><id requirementId='CSIP1'/><requirementText/></testCase> *)
Definition empty_text : Element :=
  elt "testCase" [("testable", "TRUE")] None
    [elt "id" [("requirementId", "CSIP1")] None [];
     elt "requirementText" [] None []].

(** <rules><!-- structure --><rule id='R1'/><rule id='R2'/></rules> *)
Definition commented_rules : Element :=
  elt "rules" [] None
    [comment " structure ";
     elt "rule" [("id", "R1")] None [];
     elt "rule" [("id", "R2")] None []].

(** <testCase testable='TRUE'><id requirementId='CSIP1'/>[commented_rules]</testCase> *)
Definition commented : Element :=
  elt "testCase" [("testable", "TRUE")] None
    [elt "id" [("requirementId", "CSIP1")] None []; commented_rules].

(** <rules><note>manual check</note></rules> *)
Definition noted_rules : Element :=
  elt "rules" [] None [elt "note" [] (Some "manual check") []].

(** <testCase testable='FALSE'><id requirementId='CSIP2'/>[noted_rules]</testCase> *)
Definition noted : Element :=
  elt "testCase" [("testable", "FALSE")] None
    [elt "id" [("requirementId", "CSIP2")] None []; noted_rules].

(** <rules><!-- to be written --></rules> *)
Definition pending_rules : Element :=
  elt "rules" [] None [comment " to be written "].

(** <testCase testable='UNKNOWN'><id requirementId='CSIP3'/>[pending_rules]</testCase> *)
Definition pending : Element :=
  elt "testCase" [("testable", "UNKNOWN")] None
    [elt "id" [("requirementId", "CSIP3")] None []; pending_rules].

(** The rule decoded from a node without attributes and children. *)
Definition blank_rule : TestCase.Rule.t :=
  TestCase.Rule.mk PyNone (PyStr "") None [].

(** A parser that knows one text, and a file system with one file of it. *)
Definition one_document : world :=
  {| xml := fun text =>
       if decide (text = "<testCase testable='TRUE'/>")
       then Some (elt "testCase" [("testable", "TRUE")] None [])
       else None;
     file := fun path =>
       if decide (path = "case.xml")
       then Some "<testCase testable='TRUE'/>"
       else None |}.

(** <rule id='R1'><corpusPackages><package name='old' isValid='true'/></corpusPackages>
    <corpusPackages><!-- replaced --><package name='new' isValid='false'/></corpusPackages></rule> *)
Definition old_packages : Element :=
  elt "corpusPackages" [] None
    [elt "package" [("name", "old"); ("isValid", "true")] None []].

Definition new_packages : Element :=
  elt "corpusPackages" [] None
    [comment " replaced ";
     elt "package" [("name", "new"); ("isValid", "false")] None []].

Definition two_package_lists : Element :=
  elt "rule" [("id", "R1")] None [old_packages; new_packages].

(** <rules><rule id='R1'/></rules> and <rules><rule id='R2'/><rule id='R3'/></rules> *)
Definition first_rules : Element :=
  elt "rules" [] None [elt "rule" [("id", "R1")] None []].

Definition more_rules : Element :=
  elt "rules" [] None
    [elt "rule" [("id", "R2")] None []; elt "rule" [("id", "R3")] None []].

End Samples.

(** ** Python equality against a string literal *)

Lemma py_eq_str (v : value) (s : string) :
  py_eq v (PyStr s) = true ↔ v = PyStr s.
Proof.
  destruct v as [|t|b]; simpl; [easy| |easy].
  rewrite bool_decide_eq_true. split; [intros ->; reflexivity|congruence].
Qed.

Lemma py_eq_str_false (v : value) (s : string) :
  py_eq v (PyStr s) = false ↔ v ≠ PyStr s.
Proof.
  rewrite <- py_eq_str. destruct (py_eq v (PyStr s)); split; congruence.
Qed.

Lemma py_eq_bool_str (b : bool) (s : string) : py_eq (PyBool b) (PyStr s) = false.
Proof. reflexivity. Qed.

(** ** The accessors [testable] and [unknown] *)

(** C3: [testable] is true exactly when the raw value is the string "TRUE",
    [unknown] exactly when it is the string "UNKNOWN"; for "FALSE" and for
    every other raw value both are false. *)
Theorem testable_unknown_classification (tc : TestCase.t) :
  (TestCase.testable tc = true ↔ TestCase._testable tc = PyStr "TRUE") ∧
  (TestCase.unknown tc = true ↔ TestCase._testable tc = PyStr "UNKNOWN") ∧
  (TestCase._testable tc = PyStr "FALSE" →
     TestCase.testable tc = false ∧ TestCase.unknown tc = false) ∧
  (TestCase._testable tc ≠ PyStr "TRUE" →
   TestCase._testable tc ≠ PyStr "UNKNOWN" →
     TestCase.testable tc = false ∧ TestCase.unknown tc = false).
Proof.
  unfold TestCase.testable, TestCase.unknown.
  split; [apply py_eq_str|]. split; [apply py_eq_str|].
  split.
  - intros ->. split; reflexivity.
  - intros Ht Hu. split; apply py_eq_str_false; assumption.
Qed.

Lemma testable_unknown_classification_witness :
  let tc := TestCase.mk None (PyStr "true") [] (PyStr "") [] in
  TestCase.testable tc = false ∧ TestCase.unknown tc = false.
Proof.
  intros tc.
  apply (proj2 (proj2 (proj2 (testable_unknown_classification tc))));
    simpl; discriminate.
Defined.

(** The same on a decoded document: the classification follows the
    [testable] attribute as the document has it. *)
Lemma from_element_testable TC_SCHEMA (e : ET.Element) schema :
  ∃ tc, TestCase.from_element TC_SCHEMA e schema = Ok tc ∧
        TestCase._testable tc = ET.get e "testable".
Proof.
  unfold TestCase.from_element. simpl.
  destruct (foldl _ _ _) as [[req_id text] rules]. eexists. split; reflexivity.
Qed.

(** C10: a test case built by the constructor with [testable] left at its
    default, the boolean [True], reports neither [testable] nor [unknown]. *)
Theorem default_testable_is_neither (case_id : option TestCase.CaseId.t)
    (references : option (list value)) (text : option value)
    (rules : option (list TestCase.Rule.t)) :
  let tc := TestCase.__init__ case_id None references text rules in
  TestCase._testable tc = PyBool true ∧
  TestCase.testable tc = false ∧ TestCase.unknown tc = false.
Proof. repeat split. Qed.

(** ** The textual representation *)

Lemma str_add_bool (s : string) (b : bool) : str_add s (PyBool b) = Raise TypeError.
Proof. reflexivity. Qed.

Lemma bind_raise_inv {A B} (m : result A) (k : A → result B) (e : exn) :
  (∀ a, m = Ok a → k a = Raise e) → (∀ e', m = Raise e' → e' = e) →
  m ≫= k = Raise e.
Proof.
  intros Hk Hm. destruct m as [a|e']; simpl.
  - apply Hk. reflexivity.
  - f_equal. apply Hm. reflexivity.
Qed.

Lemma str_add_raises (s : string) (v : value) (e : exn) :
  str_add s v = Raise e → e = TypeError.
Proof. destruct v; simpl; congruence. Qed.

Lemma CaseId_str_raises (c : TestCase.CaseId.t) (e : exn) :
  TestCase.CaseId.__str__ c = Raise e → e = TypeError.
Proof.
  unfold TestCase.CaseId.__str__, TestCase.CaseId.requirement_id,
    TestCase.CaseId.specification, TestCase.CaseId.version.
  destruct c as [[|r|r] [|s|s] [|v|v]]; simpl; congruence.
Qed.

(** C9 (as the code has it): [__str__] adds the boolean [self.testable] to a
    string, so it raises [TypeError] for every test case. *)
Theorem TestCase_str_raises_TypeError (tc : TestCase.t) :
  TestCase.__str__ tc = Raise TypeError.
Proof.
  unfold TestCase.__str__. apply bind_raise_inv.
  - intros c _. reflexivity.
  - intros e. destruct (TestCase.case_id tc) as [c|]; simpl.
    + apply CaseId_str_raises.
    + discriminate.
Qed.

Example str_bare : TestCase.__str__ Samples.bare = Raise TypeError.
Proof. reflexivity. Qed.

(** ** The loops of the decoders *)

Section Loops.
Import ET.

Lemma tag_is_inj (c : Element) (a b : string) :
  tag_is c a = true → tag_is c b = true → a = b.
Proof.
  unfold tag_is. destruct (tag c); [|discriminate..].
  rewrite !bool_decide_eq_true. congruence.
Qed.

Lemma tag_is_other (c : Element) (a b : string) :
  a ≠ b → tag_is c a = true → tag_is c b = false.
Proof.
  intros Hab Ha. destruct (tag_is c b) eqn:Hb; [|reflexivity].
  destruct Hab. eapply tag_is_inj; eassumption.
Qed.

Lemma filter_tag_snoc (name : string) (l : list Element) (c : Element) :
  filter (λ c, tag_is c name = true) (l ++ [c]) =
  filter (λ c, tag_is c name = true) l ++ (if tag_is c name then [c] else []).
Proof.
  rewrite filter_app. f_equal.
  destruct (tag_is c name) eqn:H.
  - rewrite filter_cons_True by assumption. reflexivity.
  - rewrite filter_cons_False by congruence. reflexivity.
Qed.

(** Appending the image of each element is mapping over the list. *)
Lemma foldl_append_each {A B} (f : A → B) (l : list A) (acc : list B) :
  foldl (λ acc x, acc ++ [f x]) acc l = acc ++ (f <$> l).
Proof.
  revert acc. induction l as [|x l IH]; intros acc; simpl.
  - rewrite app_nil_r. reflexivity.
  - rewrite IH, <- app_assoc. reflexivity.
Qed.

(** [_parse_package_list] keeps the children tagged [package], decoded, in
    document order. *)
Lemma _parse_package_list_tagged (packages_ele : Element) :
  TestCase.Rule._parse_package_list packages_ele =
  TestCase.Rule.Package.from_element <$> tagged "package" packages_ele.
Proof.
  unfold TestCase.Rule._parse_package_list, tagged.
  induction (children packages_ele) as [|c l IH] using rev_ind; [reflexivity|].
  rewrite foldl_snoc, IH, filter_tag_snoc, fmap_app.
  destruct (tag_is c "package"); simpl; [reflexivity|].
  rewrite app_nil_r. reflexivity.
Qed.

(** The state of the loop of [TestCase.from_element] after the children
    [cs]: the last [id] child decoded, the text of the last
    [requirementText] child, and a rule for every child of every [rules]
    child. *)
Lemma from_element_loop (cs : list Element) :
  foldl TestCase.from_element_step (None, PyStr "", []) cs =
  (TestCase.CaseId.from_element <$>
     last (filter (λ c, tag_is c "id" = true) cs),
   from_option text (PyStr "")
     (last (filter (λ c, tag_is c "requirementText" = true) cs)),
   TestCase.Rule.from_element <$>
     (filter (λ c, tag_is c "rules" = true) cs ≫= children)).
Proof.
  induction cs as [|c cs IH] using rev_ind; [reflexivity|].
  rewrite foldl_snoc, IH, !filter_tag_snoc. unfold TestCase.from_element_step.
  destruct (tag_is c "id") eqn:Hid.
  { rewrite (tag_is_other c "id" "requirementText"),
      (tag_is_other c "id" "rules"), last_snoc, !app_nil_r by done.
    reflexivity. }
  destruct (tag_is c "requirementText") eqn:Htext.
  { rewrite (tag_is_other c "requirementText" "rules"), last_snoc, !app_nil_r
      by done.
    reflexivity. }
  destruct (tag_is c "rules") eqn:Hrules.
  - rewrite foldl_append_each, !app_nil_r, bind_app, fmap_app. simpl.
    rewrite app_nil_r. reflexivity.
  - rewrite !app_nil_r. reflexivity.
Qed.

End Loops.

(** ** The document decoder *)

(** [from_element] returns for every element and every schema, and what it
    returns is read off the element alone. *)
Lemma from_element_eq TC_SCHEMA (e : ET.Element) schema :
  TestCase.from_element TC_SCHEMA e schema =
  Ok (TestCase.mk
        (TestCase.CaseId.from_element <$> last (tagged "id" e))
        (ET.get e "testable")
        []
        (from_option ET.text (PyStr "") (last (tagged "requirementText" e)))
        (TestCase.Rule.from_element <$> (tagged "rules" e ≫= ET.children))).
Proof.
  unfold TestCase.from_element. rewrite from_element_loop. reflexivity.
Qed.

(** The result of [from_element] does not depend on the schema, so not on
    what [validate] answers. *)
Lemma from_element_schema_irrelevant TC1 TC2 (e : ET.Element) schema1 schema2 :
  TestCase.from_element TC1 e schema1 = TestCase.from_element TC2 e schema2.
Proof. rewrite !from_element_eq. reflexivity. Qed.

(** C1 (as the code has it): the answer of [validate] is dropped.  A
    document the schema rejects, here one without the [id] child and one
    with a wrong root, is decoded to a [TestCase] all the same. *)
Theorem invalid_document_is_decoded :
  ET.validate Samples.requires_id Samples.missing_id = false ∧
  TestCase.from_element Samples.requires_id Samples.missing_id None =
    Ok (TestCase.mk None (PyStr "TRUE") [] (PyStr "Must have METS") []) ∧
  ET.validate Samples.root_is_testCase Samples.wrong_root = false ∧
  TestCase.from_element Samples.requires_id Samples.wrong_root
    (Some Samples.root_is_testCase) =
    Ok (TestCase.mk None PyNone [] (PyStr "") []).
Proof. repeat split; vm_compute; reflexivity. Qed.

(** [from_xml_file] reads the file, parses it and decodes the root. *)
Lemma from_xml_file_eq lxml TC_SCHEMA (xml_file : string) schema :
  TestCase.from_xml_file lxml TC_SCHEMA xml_file schema =
  match ET.file lxml xml_file with
  | None => Raise OSError
  | Some text =>
      match ET.xml lxml text with
      | None => Raise XMLSyntaxError
      | Some root =>
          TestCase.from_element TC_SCHEMA root (Some (default TC_SCHEMA schema))
      end
  end.
Proof.
  unfold TestCase.from_xml_file, ET.parse.
  destruct (ET.file lxml xml_file) as [text|]; [|reflexivity].
  destruct (ET.xml lxml text); reflexivity.
Qed.

(** C2 (as the code has it): [fromstring] hands back the root element, which
    has no [getroot]; [from_xml_string] raises [AttributeError] for every
    well-formed text and [XMLSyntaxError] for every other, and returns no
    test case. *)
Theorem from_xml_string_raises lxml TC_SCHEMA (xml : string) schema :
  TestCase.from_xml_string lxml TC_SCHEMA xml schema =
  match ET.xml lxml xml with
  | Some _ => Raise AttributeError
  | None => Raise XMLSyntaxError
  end.
Proof.
  unfold TestCase.from_xml_string, ET.fromstring.
  destruct (ET.xml lxml xml); reflexivity.
Qed.

Example from_xml_string_one_document :
  TestCase.from_xml_string Samples.one_document Samples.root_is_testCase
    "<testCase testable='TRUE'/>" None = Raise AttributeError ∧
  TestCase.from_xml_file Samples.one_document Samples.root_is_testCase
    "case.xml" None = Ok (TestCase.mk None (PyStr "TRUE") [] (PyStr "") []).
Proof. split; vm_compute; reflexivity. Qed.

(** C8: no decoder fills [references]: every test case that [from_element]
    returns, and so every one that [from_xml_file] or [from_xml_string]
    returns, has the empty list there; [from_element] returns for every
    element. *)
Theorem decoded_references_empty lxml TC_SCHEMA :
  (∀ e schema, ∃ tc,
     TestCase.from_element TC_SCHEMA e schema = Ok tc ∧
     TestCase.references tc = []) ∧
  (∀ xml_file schema,
     match TestCase.from_xml_file lxml TC_SCHEMA xml_file schema with
     | Ok tc => TestCase.references tc = []
     | Raise _ => True
     end) ∧
  (∀ xml schema,
     match TestCase.from_xml_string lxml TC_SCHEMA xml schema with
     | Ok tc => TestCase.references tc = []
     | Raise _ => True
     end).
Proof.
  split; [|split].
  - intros e schema. rewrite from_element_eq. eexists. split; reflexivity.
  - intros xml_file schema. rewrite from_xml_file_eq.
    destruct (ET.file lxml xml_file) as [text|]; [|exact I].
    destruct (ET.xml lxml text) as [root|]; [|exact I].
    rewrite from_element_eq. reflexivity.
  - intros xml schema. unfold TestCase.from_xml_string, ET.fromstring.
    destruct (ET.xml lxml xml); exact I.
Qed.

(** ** The requirement text *)

(** C7, the claim fails: an empty [requirementText] element has no text, and
    the decoded requirement text is then [None], not the empty string. *)
Lemma empty_requirementText_gives_None :
  tagged "requirementText" Samples.empty_text =
    [Samples.elt "requirementText" [] None []] ∧
  ∃ tc, TestCase.from_element Samples.root_is_testCase Samples.empty_text None
          = Ok tc ∧
        TestCase.requirement_text tc = PyNone ∧
        TestCase.requirement_text tc ≠ PyStr "".
Proof.
  split; [vm_compute; reflexivity|].
  eexists. split; [vm_compute; reflexivity|].
  split; [reflexivity|discriminate].
Qed.

(** C7, amended: without a [requirementText] child the requirement text is the
    empty string; with one, it is what the last such child has as its text:
    the string as written, or [None] when the element has no text. *)
Theorem requirement_text_of_document TC_SCHEMA (e : ET.Element) schema :
  ∃ tc, TestCase.from_element TC_SCHEMA e schema = Ok tc ∧
        TestCase.requirement_text tc =
        match last (tagged "requirementText" e) with
        | None => PyStr ""
        | Some (ET.mkElement _ _ (Some s) _) => PyStr s
        | Some (ET.mkElement _ _ None _) => PyNone
        end.
Proof.
  rewrite from_element_eq. eexists. split; [reflexivity|].
  unfold TestCase.requirement_text. simpl.
  destruct (last (tagged "requirementText" e)) as [[t a [s|] cs]|]; reflexivity.
Qed.

(** ** Rules and packages *)

(** The state of the loop of [Rule.from_element] after the children [cs]. *)
Lemma Rule_from_element_loop (cs : list ET.Element) :
  foldl (fun '(description, error, packages) child =>
           if ET.tag_is child "description"
           then (ET.text child, error, packages)
           else if ET.tag_is child "error"
           then (description, Some (TestCase.Rule.Error.from_element child),
                 packages)
           else if ET.tag_is child "corpusPackages"
           then (description, error, TestCase.Rule._parse_package_list child)
           else (description, error, packages))
        (PyStr "", None, []) cs =
  (from_option ET.text (PyStr "")
     (last (filter (λ c, ET.tag_is c "description" = true) cs)),
   TestCase.Rule.Error.from_element <$>
     last (filter (λ c, ET.tag_is c "error" = true) cs),
   from_option TestCase.Rule._parse_package_list []
     (last (filter (λ c, ET.tag_is c "corpusPackages" = true) cs))).
Proof.
  induction cs as [|c cs IH] using rev_ind; [reflexivity|].
  rewrite foldl_snoc, IH, !filter_tag_snoc.
  destruct (ET.tag_is c "description") eqn:Hd.
  { rewrite (tag_is_other c "description" "error"),
      (tag_is_other c "description" "corpusPackages"), last_snoc, !app_nil_r
      by done.
    reflexivity. }
  destruct (ET.tag_is c "error") eqn:He.
  { rewrite (tag_is_other c "error" "corpusPackages"), last_snoc, !app_nil_r
      by done.
    reflexivity. }
  destruct (ET.tag_is c "corpusPackages") eqn:Hp.
  - rewrite last_snoc, !app_nil_r. reflexivity.
  - rewrite !app_nil_r. reflexivity.
Qed.

(** A rule element decodes to its [id] attribute, the text of its last
    [description] child, the error of its last [error] child and the
    packages of its last [corpusPackages] child. *)
Lemma Rule_from_element_eq (rule_ele : ET.Element) :
  TestCase.Rule.from_element rule_ele =
  TestCase.Rule.mk
    (ET.get rule_ele "id")
    (from_option ET.text (PyStr "") (last (tagged "description" rule_ele)))
    (TestCase.Rule.Error.from_element <$> last (tagged "error" rule_ele))
    (from_option
       (λ p, TestCase.Rule.Package.from_element <$> tagged "package" p) []
       (last (tagged "corpusPackages" rule_ele))).
Proof.
  unfold TestCase.Rule.from_element. rewrite Rule_from_element_loop.
  unfold tagged. f_equal.
  destruct (last (filter (λ c, ET.tag_is c "corpusPackages" = true) _))
    as [p|]; simpl; [apply _parse_package_list_tagged|reflexivity].
Qed.

(** X17: a rule without an [error] child has no error. *)
Lemma Rule_without_error_child (rule_ele : ET.Element) :
  tagged "error" rule_ele = [] →
  TestCase.Rule.error (TestCase.Rule.from_element rule_ele) = None.
Proof. intros H. rewrite Rule_from_element_eq. simpl. rewrite H. reflexivity. Qed.

(** The packages of a rule with one [corpusPackages] child are the decoded
    [package] children of that child, in document order. *)
Lemma Rule_packages_in_document_order (rule_ele packages_ele : ET.Element) :
  tagged "corpusPackages" rule_ele = [packages_ele] →
  TestCase.Rule.packages (TestCase.Rule.from_element rule_ele) =
    TestCase.Rule.Package.from_element <$> tagged "package" packages_ele ∧
  length (TestCase.Rule.packages (TestCase.Rule.from_element rule_ele)) =
    length (tagged "package" packages_ele).
Proof.
  intros H. rewrite Rule_from_element_eq. simpl. rewrite H. simpl.
  split; [reflexivity|apply length_fmap].
Qed.

(** X18: a test case element with one [rules] child, all of whose children
    are rules, decodes to these rules in document order. *)
Lemma rules_in_document_order TC_SCHEMA (e rules_ele : ET.Element) schema :
  tagged "rules" e = [rules_ele] →
  tagged "rule" rules_ele = ET.children rules_ele →
  ∃ tc, TestCase.from_element TC_SCHEMA e schema = Ok tc ∧
        TestCase.rules tc =
          TestCase.Rule.from_element <$> tagged "rule" rules_ele.
Proof.
  intros He Hr. rewrite from_element_eq. eexists. split; [reflexivity|].
  simpl. rewrite He, Hr. simpl. rewrite app_nil_r. reflexivity.
Qed.

(** Every child of a [rules] child, whatever its tag, becomes a rule. *)
Lemma rules_of_every_child TC_SCHEMA (e rules_ele : ET.Element) schema :
  tagged "rules" e = [rules_ele] →
  ∃ tc, TestCase.from_element TC_SCHEMA e schema = Ok tc ∧
        TestCase.rules tc =
          TestCase.Rule.from_element <$> ET.children rules_ele.
Proof.
  intros He. rewrite from_element_eq. eexists. split; [reflexivity|].
  simpl. rewrite He. simpl. rewrite app_nil_r. reflexivity.
Qed.

(** C4 (as the code has it): the loop over a [rules] element does not look
    at the tags.  The [rules] element below has two children tagged [rule]
    and a comment before them; the decoded sequence has three entries, the
    first made from the comment. *)
Theorem rules_length_counts_every_child :
  tagged "rules" Samples.commented = [Samples.commented_rules] ∧
  length (tagged "rule" Samples.commented_rules) = 2 ∧
  ∃ tc, TestCase.from_element Samples.root_is_testCase Samples.commented None
          = Ok tc ∧
        length (TestCase.rules tc) = 3 ∧
        TestCase.rules tc =
          [Samples.blank_rule;
           TestCase.Rule.mk (PyStr "R1") (PyStr "") None [];
           TestCase.Rule.mk (PyStr "R2") (PyStr "") None []].
Proof.
  split; [vm_compute; reflexivity|]. split; [vm_compute; reflexivity|].
  eexists. split; [vm_compute; reflexivity|]. split; reflexivity.
Qed.

(** C5 (as the code has it): a child of [rules] with another tag is not
    ignored.  The [note] element below is decoded as a rule and is the one
    entry of the sequence. *)
Theorem non_rule_child_becomes_rule :
  ET.children Samples.noted_rules =
    [Samples.elt "note" [] (Some "manual check") []] ∧
  ET.tag_is (Samples.elt "note" [] (Some "manual check") []) "rule" = false ∧
  ∃ tc, TestCase.from_element Samples.root_is_testCase Samples.noted None
          = Ok tc ∧
        TestCase.rules tc = [Samples.blank_rule].
Proof.
  split; [reflexivity|]. split; [reflexivity|].
  eexists. split; vm_compute; reflexivity.
Qed.

(** C6 (as the code has it): a [rules] element without a child tagged
    [rule], here one that holds a comment only, decodes to a sequence that
    is not empty. *)
Theorem rules_without_rule_child_not_empty :
  tagged "rules" Samples.pending = [Samples.pending_rules] ∧
  tagged "rule" Samples.pending_rules = [] ∧
  ∃ tc, TestCase.from_element Samples.root_is_testCase Samples.pending None
          = Ok tc ∧
        TestCase.unknown tc = true ∧
        TestCase.rules tc = [Samples.blank_rule] ∧
        TestCase.rules tc ≠ [].
Proof.
  split; [vm_compute; reflexivity|]. split; [vm_compute; reflexivity|].
  eexists. split; [vm_compute; reflexivity|].
  split; [reflexivity|]. split; [reflexivity|discriminate].
Qed.

(** A [rules] element without any child adds no rule. *)
Lemma rules_without_children TC_SCHEMA (e rules_ele : ET.Element) schema :
  tagged "rules" e = [rules_ele] →
  ET.children rules_ele = [] →
  ∃ tc, TestCase.from_element TC_SCHEMA e schema = Ok tc ∧
        TestCase.rules tc = [].
Proof.
  intros He Hr.
  destruct (rules_of_every_child TC_SCHEMA e rules_ele schema He)
    as (tc & Htc & Hrules).
  exists tc. split; [assumption|]. rewrite Hrules, Hr. reflexivity.
Qed.

(** ** Further properties of the textual representations *)

Lemma string_app_assoc (s t u : string) : (s +:+ t) +:+ u = s +:+ t +:+ u.
Proof.
  induction s as [|a s IH]; [reflexivity|].
  change (String a ((s +:+ t) +:+ u) = String a (s +:+ t +:+ u)).
  rewrite IH. reflexivity.
Qed.

(** X1: [CaseId.__str__] returns the three fields behind their labels when
    all three are strings, and raises [TypeError] as soon as one is not. *)
Theorem CaseId_str_eq (c : TestCase.CaseId.t) :
  TestCase.CaseId.__str__ c =
  match TestCase.CaseId.requirement_id c, TestCase.CaseId.specification c,
        TestCase.CaseId.version c with
  | PyStr r, PyStr s, PyStr v =>
      Ok ("req_id:" +:+ r +:+ ", specification:" +:+ s +:+ ", version:" +:+ v)
  | _, _, _ => Raise TypeError
  end.
Proof.
  unfold TestCase.CaseId.__str__, TestCase.CaseId.requirement_id,
    TestCase.CaseId.specification, TestCase.CaseId.version.
  destruct c as [[|r|r] [|s|s] [|v|v]]; try reflexivity.
  cbn [str_add mbind result_bind TestCase.CaseId._requirement_id
       TestCase.CaseId._specification TestCase.CaseId._version].
  rewrite !string_app_assoc. reflexivity.
Qed.

(** X2: the [CaseId] decoded from an element prints only when the element
    has the attributes [requirementId], [specification] and [version]; the
    defaults of the constructor do not stand in for an absent attribute. *)
Theorem CaseId_str_of_element (case_id_ele : ET.Element) :
  TestCase.CaseId.__str__ (TestCase.CaseId.from_element case_id_ele) =
  match ET.attrib case_id_ele !! "requirementId",
        ET.attrib case_id_ele !! "specification",
        ET.attrib case_id_ele !! "version" with
  | Some r, Some s, Some v =>
      Ok ("req_id:" +:+ r +:+ ", specification:" +:+ s +:+ ", version:" +:+ v)
  | _, _, _ => Raise TypeError
  end.
Proof.
  unfold TestCase.CaseId.__str__, TestCase.CaseId.from_element,
    TestCase.CaseId.__init__, TestCase.CaseId.requirement_id,
    TestCase.CaseId.specification, TestCase.CaseId.version, ET.get.
  destruct (ET.attrib case_id_ele !! "requirementId") as [r|],
    (ET.attrib case_id_ele !! "specification") as [s|],
    (ET.attrib case_id_ele !! "version") as [v|]; try reflexivity.
  cbn [str_add mbind result_bind from_option id
       TestCase.CaseId._requirement_id TestCase.CaseId._specification
       TestCase.CaseId._version].
  rewrite !string_app_assoc. reflexivity.
Qed.

(** X3: a [CaseId] built from a requirement id alone prints with the
    defaults of the constructor, [CSIP] and [2.0]. *)
Theorem CaseId_str_defaults (r : string) :
  TestCase.CaseId.__str__ (TestCase.CaseId.__init__ (PyStr r) None None) =
  Ok ("req_id:" +:+ r +:+ ", specification:CSIP, version:2.0").
Proof.
  unfold TestCase.CaseId.__str__, TestCase.CaseId.__init__,
    TestCase.CaseId.requirement_id, TestCase.CaseId.specification,
    TestCase.CaseId.version.
  cbn [str_add mbind result_bind from_option id
       TestCase.CaseId._requirement_id TestCase.CaseId._specification
       TestCase.CaseId._version].
  rewrite !string_app_assoc. reflexivity.
Qed.

(** X4: [Rule.__str__] returns the rule id, the description and the
    representation of the error behind their labels when the id and the
    description are strings, and raises [TypeError] otherwise, whatever the
    error is. *)
Theorem Rule_str_eq (object_str : TestCase.Rule.Error.t → string)
    (rule : TestCase.Rule.t) :
  TestCase.Rule.__str__ object_str rule =
  match TestCase.Rule.rule_id rule, TestCase.Rule.description rule with
  | PyStr i, PyStr d =>
      Ok ("rule_id:" +:+ i +:+ ", description:" +:+ d +:+ ", error:" +:+
          TestCase.Rule.str_error object_str (TestCase.Rule.error rule))
  | _, _ => Raise TypeError
  end.
Proof.
  unfold TestCase.Rule.__str__, TestCase.Rule.rule_id,
    TestCase.Rule.description, TestCase.Rule.error.
  destruct rule as [[|i|i] [|d|d] e p]; try reflexivity.
  cbn [str_add mbind result_bind TestCase.Rule._rule_id
       TestCase.Rule._description TestCase.Rule._error].
  rewrite !string_app_assoc. reflexivity.
Qed.

(** ** Further properties of the accessors *)

(** X5: no test case is both [testable] and [unknown]. *)
Theorem testable_unknown_exclusive (tc : TestCase.t) :
  TestCase.testable tc && TestCase.unknown tc = false.
Proof.
  destruct (TestCase.testable tc) eqn:Ht; [|reflexivity].
  apply py_eq_str in Ht. unfold TestCase.unknown. rewrite Ht. reflexivity.
Qed.

(** X6: a decoded test case is [testable] exactly when the element has the
    attribute [testable] with the value [TRUE], and [unknown] exactly when
    it has it with the value [UNKNOWN]; without the attribute it is
    neither. *)
Theorem decoded_testable_follows_attribute TC_SCHEMA (e : ET.Element) schema :
  ∃ tc, TestCase.from_element TC_SCHEMA e schema = Ok tc ∧
        TestCase.testable tc =
          bool_decide (ET.attrib e !! "testable" = Some "TRUE") ∧
        TestCase.unknown tc =
          bool_decide (ET.attrib e !! "testable" = Some "UNKNOWN").
Proof.
  destruct (from_element_testable TC_SCHEMA e schema) as (tc & Htc & Hraw).
  exists tc. split; [assumption|].
  unfold TestCase.testable, TestCase.unknown. rewrite Hraw. unfold ET.get.
  destruct (ET.attrib e !! "testable") as [s|]; simpl.
  - split; apply bool_decide_ext; split; congruence.
  - split; reflexivity.
Qed.

(** ** Further properties of the decoders *)

(** X7: an [Error] takes its level from the attribute [level] and its
    message from the text of the last [message] child; without such a child
    the message is the empty string. *)
Theorem Error_from_element_eq (error_ele : ET.Element) :
  TestCase.Rule.Error.from_element error_ele =
  TestCase.Rule.Error.mk
    (ET.get error_ele "level")
    (from_option ET.text (PyStr "") (last (tagged "message" error_ele))).
Proof.
  unfold TestCase.Rule.Error.from_element, tagged. f_equal.
  induction (ET.children error_ele) as [|c cs IH] using rev_ind;
    [reflexivity|].
  rewrite foldl_snoc, IH, filter_tag_snoc.
  destruct (ET.tag_is c "message").
  - rewrite last_snoc. reflexivity.
  - rewrite app_nil_r. reflexivity.
Qed.

(** The state of the loop of [Package.from_element] after the children
    [cs]. *)
Lemma Package_from_element_loop (cs : list ET.Element) :
  foldl (fun '(path, description) child =>
           if ET.tag_is child "path" then (ET.text child, description)
           else if ET.tag_is child "description"
                then (path, ET.text child)
                else (path, description))
        (PyStr "", PyStr "") cs =
  (from_option ET.text (PyStr "")
     (last (filter (λ c, ET.tag_is c "path" = true) cs)),
   from_option ET.text (PyStr "")
     (last (filter (λ c, ET.tag_is c "description" = true) cs))).
Proof.
  induction cs as [|c cs IH] using rev_ind; [reflexivity|].
  rewrite foldl_snoc, IH, !filter_tag_snoc.
  destruct (ET.tag_is c "path") eqn:Hp.
  { rewrite (tag_is_other c "path" "description"), last_snoc, !app_nil_r
      by done.
    reflexivity. }
  destruct (ET.tag_is c "description") eqn:Hd.
  - rewrite last_snoc, !app_nil_r. reflexivity.
  - rewrite !app_nil_r. reflexivity.
Qed.

(** X8: a [Package] takes its name and validity from the attributes [name]
    and [isValid], as they are, and its path and description from the text
    of the last [path] and the last [description] child; each is the empty
    string without such a child. *)
Theorem Package_from_element_eq (package_ele : ET.Element) :
  TestCase.Rule.Package.from_element package_ele =
  TestCase.Rule.Package.mk
    (ET.get package_ele "name")
    (from_option ET.text (PyStr "") (last (tagged "path" package_ele)))
    (ET.get package_ele "isValid")
    (from_option ET.text (PyStr "")
       (last (tagged "description" package_ele))).
Proof.
  unfold TestCase.Rule.Package.from_element.
  rewrite Package_from_element_loop. reflexivity.
Qed.

(** X9: [_parse_package_list] returns the decoded children tagged
    [package], in document order; every other child, a comment too, is left
    out, so the list is never longer than the list of children. *)
Theorem parse_package_list_keeps_packages (packages_ele : ET.Element) :
  TestCase.Rule._parse_package_list packages_ele =
    TestCase.Rule.Package.from_element <$> tagged "package" packages_ele ∧
  length (TestCase.Rule._parse_package_list packages_ele) =
    length (tagged "package" packages_ele) ∧
  (length (TestCase.Rule._parse_package_list packages_ele) ≤
     length (ET.children packages_ele))%nat.
Proof.
  rewrite _parse_package_list_tagged, length_fmap.
  split; [reflexivity|]. split; [reflexivity|].
  unfold tagged. apply length_filter.
Qed.

(** X10: the fields of a decoded rule: the [id] attribute, the text of the
    last [description] child (the empty string without one), the error of
    the last [error] child (none without one) and the packages of the last
    [corpusPackages] child (none without one). *)
Theorem Rule_decoded_fields (rule_ele : ET.Element) :
  let rule := TestCase.Rule.from_element rule_ele in
  TestCase.Rule.rule_id rule = ET.get rule_ele "id" ∧
  TestCase.Rule.description rule =
    from_option ET.text (PyStr "") (last (tagged "description" rule_ele)) ∧
  TestCase.Rule.error rule =
    TestCase.Rule.Error.from_element <$> last (tagged "error" rule_ele) ∧
  TestCase.Rule.packages rule =
    match last (tagged "corpusPackages" rule_ele) with
    | Some packages_ele =>
        TestCase.Rule.Package.from_element <$> tagged "package" packages_ele
    | None => []
    end.
Proof.
  intros rule. subst rule. rewrite Rule_from_element_eq.
  split; [reflexivity|]. split; [reflexivity|]. split; [reflexivity|].
  simpl. destruct (last (tagged "corpusPackages" rule_ele)); reflexivity.
Qed.

(** X11: of several [corpusPackages] children of a rule the last one alone
    gives the packages; those of the earlier ones are dropped. *)
Theorem Rule_last_package_list_wins
    (rule_ele : ET.Element) (earlier : list ET.Element)
    (packages_ele : ET.Element) :
  tagged "corpusPackages" rule_ele = earlier ++ [packages_ele] →
  TestCase.Rule.packages (TestCase.Rule.from_element rule_ele) =
    TestCase.Rule.Package.from_element <$> tagged "package" packages_ele.
Proof.
  intros H. rewrite Rule_from_element_eq. simpl.
  rewrite H, last_snoc. reflexivity.
Qed.

Lemma Rule_last_package_list_wins_witness :
  TestCase.Rule.packages
    (TestCase.Rule.from_element Samples.two_package_lists) =
  TestCase.Rule.Package.from_element <$>
    tagged "package" Samples.new_packages.
Proof.
  apply (Rule_last_package_list_wins Samples.two_package_lists
           [Samples.old_packages] Samples.new_packages).
  vm_compute. reflexivity.
Defined.

(** ** Further properties of the document decoder *)

(** X12: the case id and the rules of a decoded test case.  The case id is
    decoded from the last [id] child and is absent exactly when there is no
    such child; the rules are those of all [rules] children, one after the
    other in document order, so several [rules] children add up. *)
Theorem TestCase_decoded_fields TC_SCHEMA (e : ET.Element) schema :
  ∃ tc, TestCase.from_element TC_SCHEMA e schema = Ok tc ∧
        TestCase.case_id tc =
          TestCase.CaseId.from_element <$> last (tagged "id" e) ∧
        (TestCase.case_id tc = None ↔ tagged "id" e = []) ∧
        TestCase.rules tc =
          TestCase.Rule.from_element <$> (tagged "rules" e ≫= ET.children) ∧
        length (TestCase.rules tc) =
          sum_list (length ∘ ET.children <$> tagged "rules" e).
Proof.
  rewrite from_element_eq. eexists. split; [reflexivity|].
  unfold TestCase.case_id, TestCase.rules. simpl.
  split; [reflexivity|]. split; [|split; [reflexivity|]].
  - rewrite fmap_None. apply last_None.
  - rewrite length_fmap. induction (tagged "rules" e) as [|r rs IH];
      [reflexivity|].
    cbn [mbind list_bind fmap list_fmap sum_list sum_list_with compose].
    rewrite length_app, IH. reflexivity.
Qed.

Lemma filter_tag_known (name : string) (cs : list ET.Element) :
  (∀ c, ET.tag_is c name = true → known_child c = true) →
  filter (λ c, ET.tag_is c name = true)
    (filter (λ c, known_child c = true) cs) =
  filter (λ c, ET.tag_is c name = true) cs.
Proof.
  intros Hknown. induction cs as [|c cs IH]; [reflexivity|].
  destruct (known_child c) eqn:Hk.
  - rewrite (filter_cons_True (λ c, known_child c = true)) by assumption.
    destruct (ET.tag_is c name) eqn:Ht.
    + rewrite !(filter_cons_True (λ c, ET.tag_is c name = true))
        by assumption.
      rewrite IH. reflexivity.
    + rewrite !(filter_cons_False (λ c, ET.tag_is c name = true))
        by congruence.
      exact IH.
  - rewrite (filter_cons_False (λ c, known_child c = true)) by congruence.
    rewrite (filter_cons_False (λ c, ET.tag_is c name = true)); [exact IH|].
    intros Ht. apply Hknown in Ht. congruence.
Qed.

(** X13: the children of a test case element other than [id],
    [requirementText] and [rules], comments among them, have no effect:
    the element decodes as it does with these children removed. *)
Theorem from_element_ignores_other_children TC_SCHEMA
    (t : ET.tag_t) (a : gmap string string) (text : option string)
    (cs : list ET.Element) schema :
  TestCase.from_element TC_SCHEMA
    (ET.mkElement t a text (filter (λ c, known_child c = true) cs)) schema =
  TestCase.from_element TC_SCHEMA (ET.mkElement t a text cs) schema.
Proof.
  rewrite !from_element_eq. unfold tagged. simpl.
  rewrite !filter_tag_known; [reflexivity|..];
    intros c Hc; unfold known_child; rewrite Hc;
    repeat (reflexivity || apply orb_true_r || rewrite orb_true_r).
Qed.

(** X14: the rules of a test case element whose children are [cs1] followed
    by [cs2] are the rules decoded from [cs1] followed by those decoded from
    [cs2]. *)
Theorem rules_of_appended_children TC_SCHEMA
    (t : ET.tag_t) (a : gmap string string) (text : option string)
    (cs1 cs2 : list ET.Element) schema (tc1 tc2 : TestCase.t) :
  TestCase.from_element TC_SCHEMA (ET.mkElement t a text cs1) schema = Ok tc1 →
  TestCase.from_element TC_SCHEMA (ET.mkElement t a text cs2) schema = Ok tc2 →
  ∃ tc, TestCase.from_element TC_SCHEMA
          (ET.mkElement t a text (cs1 ++ cs2)) schema = Ok tc ∧
        TestCase.rules tc = TestCase.rules tc1 ++ TestCase.rules tc2.
Proof.
  rewrite !from_element_eq. intros [= <-] [= <-].
  eexists. split; [reflexivity|].
  unfold TestCase.rules, tagged. simpl.
  rewrite filter_app, bind_app, fmap_app. reflexivity.
Qed.

Lemma rules_of_appended_children_witness :
  ∃ tc, TestCase.from_element Samples.root_is_testCase
          (ET.mkElement (ET.QName "testCase") ∅ None
             ([Samples.first_rules] ++ [Samples.more_rules])) None = Ok tc ∧
        TestCase.rules tc =
          TestCase.rules
            (TestCase.mk None PyNone [] (PyStr "")
               [TestCase.Rule.mk (PyStr "R1") (PyStr "") None []]) ++
          TestCase.rules
            (TestCase.mk None PyNone [] (PyStr "")
               [TestCase.Rule.mk (PyStr "R2") (PyStr "") None [];
                TestCase.Rule.mk (PyStr "R3") (PyStr "") None []]).
Proof.
  apply (rules_of_appended_children Samples.root_is_testCase
           (ET.QName "testCase") ∅ None
           [Samples.first_rules] [Samples.more_rules] None);
    vm_compute; reflexivity.
Defined.

(** X15: [from_xml_file] raises [OSError] when the file cannot be read and
    [XMLSyntaxError] when its content is not well formed; otherwise it
    returns what [from_element] returns for the root of the document. *)
Theorem from_xml_file_outcome lxml TC_SCHEMA (xml_file : string) schema :
  (ET.file lxml xml_file = None →
   TestCase.from_xml_file lxml TC_SCHEMA xml_file schema = Raise OSError) ∧
  (∀ text, ET.file lxml xml_file = Some text → ET.xml lxml text = None →
   TestCase.from_xml_file lxml TC_SCHEMA xml_file schema =
     Raise XMLSyntaxError) ∧
  (∀ text root,
   ET.file lxml xml_file = Some text → ET.xml lxml text = Some root →
   ∃ tc, TestCase.from_xml_file lxml TC_SCHEMA xml_file schema = Ok tc ∧
         TestCase.from_element TC_SCHEMA root schema = Ok tc).
Proof.
  rewrite from_xml_file_eq. split; [|split].
  - intros ->. reflexivity.
  - intros text -> ->. reflexivity.
  - intros text root -> ->. rewrite !from_element_eq.
    eexists. split; reflexivity.
Qed.

(** X16: what [from_xml_file] returns does not depend on the schema it is
    given, nor on the default schema. *)
Theorem from_xml_file_schema_irrelevant lxml TC1 TC2 (xml_file : string)
    schema1 schema2 :
  TestCase.from_xml_file lxml TC1 xml_file schema1 =
  TestCase.from_xml_file lxml TC2 xml_file schema2.
Proof.
  rewrite !from_xml_file_eq.
  destruct (ET.file lxml xml_file) as [text|]; [|reflexivity].
  destruct (ET.xml lxml text) as [root|]; [|reflexivity].
  apply from_element_schema_irrelevant.
Qed.

Lemma Rule_without_error_child_witness :
  TestCase.Rule.error
    (TestCase.Rule.from_element
       (Samples.elt "rule" [("id", "R1")] None
          [Samples.elt "description" [] (Some "METS root") []])) = None.
Proof.
  apply (Rule_without_error_child
           (Samples.elt "rule" [("id", "R1")] None
              [Samples.elt "description" [] (Some "METS root") []])).
  vm_compute. reflexivity.
Defined.

Lemma rules_in_document_order_witness :
  ∃ tc, TestCase.from_element Samples.root_is_testCase
          (Samples.elt "testCase" [("testable", "TRUE")] None
             [Samples.more_rules]) None = Ok tc ∧
        TestCase.rules tc =
          TestCase.Rule.from_element <$> tagged "rule" Samples.more_rules.
Proof.
  apply (rules_in_document_order Samples.root_is_testCase
           (Samples.elt "testCase" [("testable", "TRUE")] None
              [Samples.more_rules])
           Samples.more_rules None);
    vm_compute; reflexivity.
Defined.
